(** * Plasmic loader pages: login-protected catch-all routes and the public home page

    A shallow embedding of the three Next.js pages of the repository:

    - [Index]           : [pages/index.tsx], the public home page
                          ([getStaticProps] + [PlasmicLoaderPage]);
    - [CatchallServer]  : [pages/[...catchall].tsx], the variant that fetches
                          and pre-computes on the server at every request;
    - [CatchallClient]  : [pages/[...catchall].tsx], the variant that defers
                          the fetch to the browser through [useSWR].

    JavaScript values are modelled as the code uses them: [undefined] and
    [null] as [None], arrays as lists read with [!!], plain objects used as
    dictionaries as [gmap string _], and a property read on [undefined] as a
    thrown [TypeError]. The two collaborators of the pages
    ([PLASMIC.maybeFetchComponentData] and [extractPlasmicQueryData]) are
    fields of a [Loader] record; every call to them is logged in a trace. *)

From Stdlib Require Import ZArith Ascii String.
From stdpp Require Import base option list strings gmap.

(** ** JavaScript strings and arrays *)

Module Js.

(** [Array.prototype.join]: walk the array with an accumulator [R]; before
    every element but the first the separator is appended. *)
Fixpoint join_loop (sep R : string) (first : bool) (l : list string) : string :=
  match l with
  | [] => R
  | x :: l' => join_loop sep ((if first then R else R +:+ sep) +:+ x) false l'
  end.

Definition join (sep : string) (l : list string) : string :=
  join_loop sep "" true l.

(** What a JavaScript computation can throw here. *)
Inductive Error : Type :=
  | TypeError (msg : string)   (* property read on undefined *)
  | Rejected (msg : string).   (* a collaborator's promise rejected *)

(** Completion of a computation: a value or a thrown error. *)
Inductive Outcome (A : Type) : Type :=
  | Returned (a : A)
  | Thrown (e : Error).

Arguments Returned {A} a.
Arguments Thrown {A} e.

End Js.

Export Js.

(** ** Data model *)

(** A value of Next's [ParsedUrlQuery]: [string | string[]] (absent keys
    are [undefined]). *)
Inductive ParamValue : Type :=
  | PString (s : string)
  | PArray (segments : list string).

(** [ComponentMeta] of the loader: only the fields the pages read.
    [params] is optional in the loader's declaration. *)
Record ComponentMeta : Type := mkComponentMeta {
  displayName : string;
  params : option (gmap string string)
}.

(** [ComponentRenderData]: the fetched page descriptor. The bundle is opaque
    to the pages and stands here by an identifier. *)
Record ComponentRenderData : Type := mkComponentRenderData {
  entryCompMetas : list ComponentMeta;
  bundle : string
}.

(** [Record<string, any>]: the pre-computed query data, opaque values. *)
Definition QueryCache : Type := gmap string string.

(** [useRouter()]: the pages read [router.query] only. *)
Record Router : Type := mkRouter {
  query : gmap string ParamValue
}.

(** React elements the pages build. *)
Record RootProviderProps : Type := mkRootProviderProps {
  prefetchedData : ComponentRenderData;
  prefetchedQueryData : option QueryCache;
  pageParams : option (gmap string string);
  pageQuery : option (gmap string ParamValue)
}.

Inductive Element : Type :=
  | ErrorPage (statusCode : Z)                 (* <Error statusCode={..} /> *)
  | Div (text : string)                        (* <div>..</div> *)
  | PlasmicComponent (component : string)      (* <PlasmicComponent component={..} /> *)
  | PlasmicRootProvider (p : RootProviderProps) (child : Element).

(** ** The collaborators and the trace of their calls *)

Record Loader : Type := mkLoader {
  maybeFetchComponentData : string -> Outcome (option ComponentRenderData);
  extractPlasmicQueryData : Element -> Outcome QueryCache
}.

Inductive Event : Type :=
  | EvFetch (path : string)
  | EvExtract (element : Element).

(** An [async] server step: it reads the collaborators, logs its calls and
    completes with a value or a thrown error. *)
Definition Async (A : Type) : Type := Loader -> list Event -> Outcome A * list Event.

Definition ret {A} (a : A) : Async A := fun _ t => (Returned a, t).

Definition throw {A} (e : Error) : Async A := fun _ t => (Thrown e, t).

Definition bind {A B} (m : Async A) (k : A -> Async B) : Async B :=
  fun L t =>
    match m L t with
    | (Returned a, t') => k a L t'
    | (Thrown e, t') => (Thrown e, t')
    end.

Notation "'await' x ':=' m 'in' k" := (bind m (fun x => k))
  (at level 10, x name, m at level 100, k at level 200).

(** [await PLASMIC.maybeFetchComponentData(path)] *)
Definition awaitFetch (path : string) : Async (option ComponentRenderData) :=
  fun L t => (maybeFetchComponentData L path, t ++ [EvFetch path]).

(** [await extractPlasmicQueryData(element)] *)
Definition awaitExtract (element : Element) : Async QueryCache :=
  fun L t => (extractPlasmicQueryData L element, t ++ [EvExtract element]).

(** Run a server step from the empty trace. *)
Definition run {A} (m : Async A) (L : Loader) : Outcome A * list Event := m L [].

(** [pageMeta.params], [pageMeta.displayName] where [pageMeta] is the result
    of [entryCompMetas[0]]: reading a property of [undefined] throws. *)
Definition readParams (pageMeta : option ComponentMeta) : Outcome (option (gmap string string)) :=
  match pageMeta with
  | Some m => Returned (params m)
  | None => Thrown (TypeError "Cannot read properties of undefined (reading 'params')")
  end.

Definition readDisplayName (pageMeta : option ComponentMeta) : Outcome string :=
  match pageMeta with
  | Some m => Returned (displayName m)
  | None => Thrown (TypeError "Cannot read properties of undefined (reading 'displayName')")
  end.

(** Lift a pure completion into a server step. *)
Definition lift {A} (o : Outcome A) : Async A := fun _ t => (o, t).

(** Sequencing of pure completions (the render functions). *)
Definition obind {A B} (o : Outcome A) (k : A -> Outcome B) : Outcome B :=
  match o with
  | Returned a => k a
  | Thrown e => Thrown e
  end.

Notation "'const' x ':=' o 'in' k" := (obind o (fun x => k))
  (at level 10, x name, o at level 100, k at level 200).

(** What a data-fetching step hands back to Next. *)
Inductive StepResult (P : Type) : Type :=
  | PropsResult (props : P) (revalidate : option Z)
  | RedirectResult (destination : string) (permanent : bool).

Arguments PropsResult {P} props revalidate.
Arguments RedirectResult {P} destination permanent.

(** Props of the two pages that receive the descriptor from the server. *)
Record PageProps : Type := mkPageProps {
  plasmicData : option ComponentRenderData;
  queryCache : option QueryCache
}.

(** [{}] *)
Definition emptyProps : PageProps := mkPageProps None None.

(** [context.params] of [getServerSideProps]. *)
Record Context : Type := mkContext {
  ctxParams : option (gmap string ParamValue)
}.

(** [const { catchall } = context.params ?? {}] *)
Definition catchallOf (context : Context) : option ParamValue :=
  default ∅ (ctxParams context) !! "catchall".

(** [typeof catchall === 'string' ? catchall
     : Array.isArray(catchall) ? `/${catchall.join('/')}` : '/'] *)
Definition plasmicPathOf (catchall : option ParamValue) : string :=
  match catchall with
  | Some (PString s) => s
  | Some (PArray segments) => "/" +:+ join "/" segments
  | None => "/"
  end.

(** ** [pages/index.tsx]: the public home page *)

Module Index.

Definition pageToLoad : string := "/".

Definition PlasmicLoaderPage (props : PageProps) (router : Router) : Outcome Element :=
  match plasmicData props with
  | None => Returned (ErrorPage 404)
  | Some data =>
      if (length (entryCompMetas data) =? 0)%nat then Returned (ErrorPage 404)
      else
        let pageMeta := entryCompMetas data !! 0%nat in
        const metaParams := readParams pageMeta in
        const component := readDisplayName pageMeta in
        Returned (PlasmicRootProvider
                    {| prefetchedData := data;
                       prefetchedQueryData := queryCache props;
                       pageParams := metaParams;
                       pageQuery := Some (query router) |}
                    (PlasmicComponent component))
  end.

Definition getStaticProps : Async (StepResult PageProps) :=
  let plasmicPath := pageToLoad in
  await fetched := awaitFetch plasmicPath in
  match fetched with
  | None => ret (PropsResult emptyProps None)
  | Some data =>
      let pageMeta := entryCompMetas data !! 0%nat in
      await metaParams := lift (readParams pageMeta) in
      await component := lift (readDisplayName pageMeta) in
      await cache := awaitExtract
                       (PlasmicRootProvider
                          {| prefetchedData := data;
                             prefetchedQueryData := None;
                             pageParams := metaParams;
                             pageQuery := None |}
                          (PlasmicComponent component)) in
      ret (PropsResult {| plasmicData := Some data; queryCache := Some cache |}
                       (Some 60%Z))
  end.

End Index.

(** ** [pages/[...catchall].tsx], server-prefetch variant *)

Module CatchallServer.

Definition PlasmicLoaderPage (props : PageProps) (router : Router) : Outcome Element :=
  match plasmicData props with
  | None => Returned (ErrorPage 404)
  | Some data =>
      if (length (entryCompMetas data) =? 0)%nat then Returned (ErrorPage 404)
      else
        let pageMeta := entryCompMetas data !! 0%nat in
        const metaParams := readParams pageMeta in
        const component := readDisplayName pageMeta in
        Returned (PlasmicRootProvider
                    {| prefetchedData := data;
                       prefetchedQueryData := queryCache props;
                       pageParams := metaParams;
                       pageQuery := Some (query router) |}
                    (PlasmicComponent component))
  end.

(** [const isAuthorized = true], set by hand to [true] or [false]. *)
Definition isAuthorized : bool := true.

(** The body of [getServerSideProps] for a given value of the constant
    [isAuthorized]. *)
Definition getServerSidePropsFor (isAuthorized : bool) (context : Context)
  : Async (StepResult PageProps) :=
  let catchall := catchallOf context in
  let plasmicPath := plasmicPathOf catchall in
  if negb (Bool.eqb isAuthorized true) then ret (RedirectResult "/login" false)
  else
    await fetched := awaitFetch plasmicPath in
    match fetched with
    | None => ret (PropsResult emptyProps None)
    | Some data =>
        let pageMeta := entryCompMetas data !! 0%nat in
        await metaParams := lift (readParams pageMeta) in
        await component := lift (readDisplayName pageMeta) in
        await cache := awaitExtract
                         (PlasmicRootProvider
                            {| prefetchedData := data;
                               prefetchedQueryData := None;
                               pageParams := metaParams;
                               pageQuery := None |}
                            (PlasmicComponent component)) in
        ret (PropsResult {| plasmicData := Some data; queryCache := Some cache |} None)
    end.

Definition getServerSideProps : Context -> Async (StepResult PageProps) :=
  getServerSidePropsFor isAuthorized.

End CatchallServer.

(** ** [pages/[...catchall].tsx], client-fetch variant *)

Module CatchallClient.

Record ClientProps : Type := mkClientProps {
  plasmicPath : string
}.

(** What [useSWR] hands back: [{ data, error, isValidating }]. *)
Record SWRResponse : Type := mkSWRResponse {
  data : option ComponentRenderData;
  error : option Error;
  isValidating : bool
}.

(** The hooks of one render: [useRouter()] and [useSWR(key, fetcher)]. *)
Record Hooks : Type := mkHooks {
  useRouter : Router;
  useSWR : string -> SWRResponse
}.


(** [`plasmicData_${props.plasmicPath}`], the cache key given to [useSWR]. *)
Definition swrKey (props : ClientProps) : string :=
  "plasmicData_" +:+ plasmicPath props.

(** [!plasmicData || plasmicData.entryCompMetas.length === 0] *)
Definition notFound (plasmicData : option ComponentRenderData) : bool :=
  match plasmicData with
  | None => true
  | Some d => (length (entryCompMetas d) =? 0)%nat
  end.

Definition PlasmicLoaderPage (props : ClientProps) (hooks : Hooks) : Outcome Element :=
  let router := useRouter hooks in
  let swr := useSWR hooks (swrKey props) in
  let plasmicData := data swr in
  if bool_decide (is_Some (error swr)) then Returned (ErrorPage 500)
  else if isValidating swr && negb (bool_decide (is_Some plasmicData))
  then Returned (Div "Loading...")
  else if negb (isValidating swr) && notFound plasmicData
  then Returned (ErrorPage 404)
  else
    match plasmicData with
    | None =>
        Thrown (TypeError "Cannot read properties of undefined (reading 'entryCompMetas')")
    | Some d =>
        let pageMeta := entryCompMetas d !! 0%nat in
        const metaParams := readParams pageMeta in
        const component := readDisplayName pageMeta in
        Returned (PlasmicRootProvider
                    {| prefetchedData := d;
                       prefetchedQueryData := Some ∅;
                       pageParams := metaParams;
                       pageQuery := Some (query router) |}
                    (PlasmicComponent component))
    end.

Definition isAuthorized : bool := true.

Definition getServerSidePropsFor (isAuthorized : bool) (context : Context)
  : Async (StepResult ClientProps) :=
  let catchall := catchallOf context in
  let plasmicPath := plasmicPathOf catchall in
  if negb (Bool.eqb isAuthorized true) then ret (RedirectResult "/login" false)
  else ret (PropsResult {| plasmicPath := plasmicPath |} None).

Definition getServerSideProps : Context -> Async (StepResult ClientProps) :=
  getServerSidePropsFor isAuthorized.

End CatchallClient.

(** ** Auxiliary definitions for the statements *)

(** The tail of the separator-joined string: every remaining element is
    preceded by the separator. *)
Definition sepTail (sep : string) (l : list string) : string :=
  match l with
  | [] => ""
  | _ :: _ => sep +:+ String.concat sep l
  end.

(** The element the pages build for the descriptor [d] when [m] is its first
    entry, up to the query cache they pass on. *)
Definition firstEntryPage (d : ComponentRenderData) (m : ComponentMeta)
    (cache : option QueryCache) (router : Router) : Element :=
  PlasmicRootProvider
    {| prefetchedData := d;
       prefetchedQueryData := cache;
       pageParams := params m;
       pageQuery := Some (query router) |}
    (PlasmicComponent (displayName m)).

(** Is [EvFetch] the kind of this event? *)
Definition isFetch (e : Event) : bool :=
  match e with
  | EvFetch _ => true
  | EvExtract _ => false
  end.

(** The element both server steps hand to [extractPlasmicQueryData] for the
    descriptor [d] with first entry [m]: no query cache and no page query
    are bound yet. *)
Definition precomputeElement (d : ComponentRenderData) (m : ComponentMeta) : Element :=
  PlasmicRootProvider
    {| prefetchedData := d;
       prefetchedQueryData := None;
       pageParams := params m;
       pageQuery := None |}
    (PlasmicComponent (displayName m)).

(** The statements that [getStaticProps] and the server-prefetch
    [getServerSideProps] have in common after the path is known: fetch,
    return [{}] when absent, else pre-compute for the first entry. They
    differ in the path and in the [revalidate] field of the last [return]. *)
Definition prefetchFrom (plasmicPath : string) (revalidate : option Z)
  : Async (StepResult PageProps) :=
  await fetched := awaitFetch plasmicPath in
  match fetched with
  | None => ret (PropsResult emptyProps None)
  | Some data =>
      let pageMeta := entryCompMetas data !! 0%nat in
      await metaParams := lift (readParams pageMeta) in
      await component := lift (readDisplayName pageMeta) in
      await cache := awaitExtract
                       (PlasmicRootProvider
                          {| prefetchedData := data;
                             prefetchedQueryData := None;
                             pageParams := metaParams;
                             pageQuery := None |}
                          (PlasmicComponent component)) in
      ret (PropsResult {| plasmicData := Some data; queryCache := Some cache |}
                       revalidate)
  end.

(** A step result with its [revalidate] field dropped. *)
Definition withoutRevalidate {P} (r : StepResult P) : StepResult P :=
  match r with
  | PropsResult props _ => PropsResult props None
  | RedirectResult destination permanent => RedirectResult destination permanent
  end.

Definition outcomeMap {A B} (f : A -> B) (o : Outcome A) : Outcome B :=
  match o with
  | Returned a => Returned (f a)
  | Thrown e => Thrown e
  end.

(** Is this step result a redirect? *)
Definition isRedirect {P} (r : StepResult P) : bool :=
  match r with
  | PropsResult _ _ => false
  | RedirectResult _ _ => true
  end.

(** A path segment as the router hands it over in a [string[]] parameter:
    not empty and without a ["/"] inside. *)
Fixpoint slashFree (s : string) : bool :=
  match s with
  | EmptyString => true
  | String c s' => negb (Ascii.eqb c "/") && slashFree s'
  end.

Definition isSegment (s : string) : bool :=
  negb (String.eqb s "") && slashFree s.

(** The props carry no descriptor, or one without entries. *)
Definition notFoundProps (props : PageProps) : Prop :=
  plasmicData props = None ∨
  ∃ d, plasmicData props = Some d ∧ entryCompMetas d = [].

(** The five ways through the common body, by what the collaborators
    answer. *)
Inductive PrefetchRun (L : Loader) (path : string) (revalidate : option Z)
  : Outcome (StepResult PageProps) * list Event -> Prop :=
  | RunFetchRejected (e : Error) :
      maybeFetchComponentData L path = Thrown e →
      PrefetchRun L path revalidate (Thrown e, [EvFetch path])
  | RunAbsent :
      maybeFetchComponentData L path = Returned None →
      PrefetchRun L path revalidate
        (Returned (PropsResult emptyProps None), [EvFetch path])
  | RunNoEntry (d : ComponentRenderData) :
      maybeFetchComponentData L path = Returned (Some d) →
      entryCompMetas d = [] →
      PrefetchRun L path revalidate
        (Thrown (TypeError "Cannot read properties of undefined (reading 'params')"),
         [EvFetch path])
  | RunExtractRejected (d : ComponentRenderData) (m : ComponentMeta)
      (rest : list ComponentMeta) (e : Error) :
      maybeFetchComponentData L path = Returned (Some d) →
      entryCompMetas d = m :: rest →
      extractPlasmicQueryData L (precomputeElement d m) = Thrown e →
      PrefetchRun L path revalidate
        (Thrown e, [EvFetch path; EvExtract (precomputeElement d m)])
  | RunPresent (d : ComponentRenderData) (m : ComponentMeta)
      (rest : list ComponentMeta) (cache : QueryCache) :
      maybeFetchComponentData L path = Returned (Some d) →
      entryCompMetas d = m :: rest →
      extractPlasmicQueryData L (precomputeElement d m) = Returned cache →
      PrefetchRun L path revalidate
        (Returned (PropsResult {| plasmicData := Some d; queryCache := Some cache |}
                               revalidate),
         [EvFetch path; EvExtract (precomputeElement d m)]).

(** Concrete requests, descriptors and collaborators. *)
Module Sample.

Definition homeMeta : ComponentMeta :=
  mkComponentMeta "Homepage" (Some {[ "lang" := "en" ]}).

Definition otherMeta : ComponentMeta := mkComponentMeta "Other" None.

Definition homeDescriptor : ComponentRenderData :=
  mkComponentRenderData [homeMeta; otherMeta] "bundle-home".

(** A descriptor that is present but lists no entry. *)
Definition emptyDescriptor : ComponentRenderData :=
  mkComponentRenderData [] "bundle-empty".

Definition router : Router := mkRouter {[ "tab" := PString "1" ]}.

(** A request for [/docs/intro]. *)
Definition docsContext : Context :=
  mkContext (Some {[ "catchall" := PArray ["docs"; "intro"] ]}).

(** Collaborators: every path resolves to [found]; the pre-computation
    yields one cached query. *)
Definition loaderOf (found : option ComponentRenderData) : Loader :=
  {| maybeFetchComponentData := fun _ => Returned found;
     extractPlasmicQueryData := fun _ => Returned {[ "q" := "v" ]} |}.

(** Hooks of a client render where [useSWR] reports [swr] for every key. *)
Definition hooksOf (swr : CatchallClient.SWRResponse) : CatchallClient.Hooks :=
  CatchallClient.mkHooks router (fun _ => swr).

(** The cached descriptor is the empty one and a revalidation is in flight. *)
Definition revalidatingEmpty : CatchallClient.SWRResponse :=
  CatchallClient.mkSWRResponse (Some emptyDescriptor) None true.

(** The cached descriptor is the empty one and the last fetch failed. *)
Definition failedEmpty : CatchallClient.SWRResponse :=
  CatchallClient.mkSWRResponse (Some emptyDescriptor) (Some (Rejected "fetch failed")) false.

(** The cached descriptor is the empty one and the fetch is settled. *)
Definition settledEmpty : CatchallClient.SWRResponse :=
  CatchallClient.mkSWRResponse (Some emptyDescriptor) None false.

Definition docsProps : CatchallClient.ClientProps :=
  CatchallClient.mkClientProps "/docs/intro".

(** Collaborators whose descriptor fetch rejects. *)
Definition offlineLoader : Loader :=
  {| maybeFetchComponentData := fun _ => Thrown (Rejected "network down");
     extractPlasmicQueryData := fun _ => Returned ∅ |}.

(** Collaborators that find [homeDescriptor] but whose pre-computation
    rejects. *)
Definition brokenQueryLoader : Loader :=
  {| maybeFetchComponentData := fun _ => Returned (Some homeDescriptor);
     extractPlasmicQueryData := fun _ => Thrown (Rejected "query failed") |}.

(** A request for the root: no [catchall] among the route parameters. *)
Definition rootContext : Context := mkContext None.

End Sample.

(** * Properties *)

(** ** Strings *)

Lemma append_cons (a : Ascii.ascii) (s t : string) :
  String a s +:+ t = String a (s +:+ t).
Proof. reflexivity. Qed.

Lemma append_nil_r (s : string) : s +:+ "" = s.
Proof.
  induction s as [|a s IH]; [reflexivity|].
  rewrite append_cons. by rewrite IH.
Qed.

Lemma append_assoc (s t u : string) : (s +:+ t) +:+ u = s +:+ (t +:+ u).
Proof.
  induction s as [|a s IH]; [reflexivity|].
  rewrite !append_cons. by rewrite IH.
Qed.

Lemma concat_cons (sep x : string) (l : list string) :
  String.concat sep (x :: l) = x +:+ sepTail sep l.
Proof. destruct l; simpl; [by rewrite append_nil_r | reflexivity]. Qed.

Lemma join_loop_rest (sep : string) (l : list string) (R : string) :
  join_loop sep R false l = R +:+ sepTail sep l.
Proof.
  revert R. induction l as [|x l IH]; intros R.
  - simpl. by rewrite append_nil_r.
  - cbn [join_loop]. rewrite IH. unfold sepTail at 2.
    rewrite concat_cons. by rewrite !append_assoc.
Qed.

(** [Array.prototype.join] as the code runs it is the separator-joined
    string of the standard library. *)
Lemma join_concat (sep : string) (l : list string) :
  join sep l = String.concat sep l.
Proof.
  unfold join. destruct l as [|x l]; [reflexivity|].
  cbn [join_loop]. rewrite join_loop_rest. by rewrite concat_cons.
Qed.

Example join_two : join "/" ["a"; "b"] = "a/b".
Proof. reflexivity. Qed.

Example path_no_segments : plasmicPathOf (Some (PArray [])) = "/".
Proof. reflexivity. Qed.

Example path_single_segment : plasmicPathOf (Some (PString "x")) = "x".
Proof. reflexivity. Qed.

Example path_two_segments : plasmicPathOf (Some (PArray ["a"; "b"])) = "/a/b".
Proof. reflexivity. Qed.

(** ** C1: the lookup path *)

(** C1. For every value of the catch-all parameter the derived lookup path
    is: the string itself when the parameter is a single string (no leading
    slash is added); ["/"] followed by the segments joined with ["/"] when
    it is an array of segments; and ["/"] when it is absent. *)
Theorem lookup_path_cases :
  (∀ s : string, plasmicPathOf (Some (PString s)) = s) ∧
  (∀ segments : list string,
     plasmicPathOf (Some (PArray segments)) = "/" +:+ String.concat "/" segments) ∧
  plasmicPathOf None = "/".
Proof.
  split; [reflexivity|]. split; [|reflexivity].
  intros segments. unfold plasmicPathOf. by rewrite join_concat.
Qed.

(** Both catch-all variants derive their path with [plasmicPathOf] from the
    [catchall] entry of [context.params]; absent [params] read as absent
    [catchall]. *)
Lemma catchallOf_no_params : catchallOf (mkContext None) = None.
Proof. reflexivity. Qed.

Lemma catchallOf_params (ps : gmap string ParamValue) :
  catchallOf (mkContext (Some ps)) = ps !! "catchall".
Proof. reflexivity. Qed.

(** The server-prefetch variant looks the descriptor up under the derived
    path: its first logged call is the fetch of that path. *)
Lemma server_fetches_derived_path (L : Loader) (context : Context) :
  ∃ o rest,
    run (CatchallServer.getServerSideProps context) L
      = (o, EvFetch (plasmicPathOf (catchallOf context)) :: rest).
Proof.
  unfold run, CatchallServer.getServerSideProps, CatchallServer.getServerSidePropsFor,
    CatchallServer.isAuthorized, bind, awaitFetch, awaitExtract, lift, ret.
  cbn [Bool.eqb negb app].
  destruct (maybeFetchComponentData L _) as [[d|]|e]; [|by eauto..].
  destruct (entryCompMetas d) as [|m ms]; simpl; [by eauto|].
  destruct (extractPlasmicQueryData L _); simpl; by eauto.
Qed.

(** ** C2: the authorization redirect *)

(** The constant is [true] in both variants as committed. *)
Lemma handlers_as_committed :
  CatchallServer.getServerSideProps = CatchallServer.getServerSidePropsFor true ∧
  CatchallClient.getServerSideProps = CatchallClient.getServerSidePropsFor true.
Proof. split; reflexivity. Qed.

(** C2. For every request to either catch-all variant, when the
    authorization result is [false] the server step returns a non-permanent
    redirect to ["/login"], and logs no call to a collaborator: the trace it
    was started with comes back unchanged, so no descriptor fetch happened. *)
Theorem unauthorized_redirects (L : Loader) (context : Context) (t : list Event) :
  CatchallServer.getServerSidePropsFor false context L t
    = (Returned (RedirectResult "/login" false), t) ∧
  CatchallClient.getServerSidePropsFor false context L t
    = (Returned (RedirectResult "/login" false), t).
Proof. split; reflexivity. Qed.

(** ** C3: rendering the first entry *)

(** C3. For every descriptor whose entry list is non-empty ([m :: rest]),
    the render function renders the component named by the display name of
    [m], with the declared params of [m] and the query of the current
    request passed unchanged; whatever [rest] is, nothing of it reaches the
    component name or the page params. *)
Theorem render_first_entry (m : ComponentMeta) (rest : list ComponentMeta)
    (b : string) (cache : option QueryCache) (router : Router) :
  let d := mkComponentRenderData (m :: rest) b in
  Index.PlasmicLoaderPage (mkPageProps (Some d) cache) router
    = Returned (firstEntryPage d m cache router) ∧
  CatchallServer.PlasmicLoaderPage (mkPageProps (Some d) cache) router
    = Returned (firstEntryPage d m cache router).
Proof. split; reflexivity. Qed.

(** The component name and the page params of the rendered element are
    those of the first entry alone. *)
Lemma firstEntryPage_reads_first (d : ComponentRenderData) (m : ComponentMeta)
    (cache : option QueryCache) (router : Router) :
  ∃ p, firstEntryPage d m cache router
         = PlasmicRootProvider p (PlasmicComponent (displayName m)) ∧
       pageParams p = params m ∧
       pageQuery p = Some (query router) ∧
       prefetchedData p = d.
Proof. by eexists. Qed.

(** The client-fetch page does the same once a descriptor is at hand and no
    error is reported, whether a revalidation is in flight or not. *)
Lemma client_render_first_entry (m : ComponentMeta) (rest : list ComponentMeta)
    (b : string) (props : CatchallClient.ClientProps) (hooks : CatchallClient.Hooks) :
  let d := mkComponentRenderData (m :: rest) b in
  let swr := CatchallClient.useSWR hooks (CatchallClient.swrKey props) in
  CatchallClient.data swr = Some d →
  CatchallClient.error swr = None →
  CatchallClient.PlasmicLoaderPage props hooks
    = Returned (firstEntryPage d m (Some ∅) (CatchallClient.useRouter hooks)).
Proof.
  intros d swr Hdata Herr. unfold CatchallClient.PlasmicLoaderPage.
  fold swr. rewrite Hdata, Herr.
  destruct (CatchallClient.isValidating swr); reflexivity.
Qed.

(** ** C4: an absent descriptor *)

(** C4. For every request to the server-prefetch variant with authorization
    [true], if the descriptor fetch returns absent then the server step
    returns the empty props (no descriptor, no cache) after that single
    fetch, and rendering the empty props gives the 404 page. *)
Theorem absent_descriptor_404 (L : Loader) (context : Context) (router : Router) :
  maybeFetchComponentData L (plasmicPathOf (catchallOf context)) = Returned None →
  run (CatchallServer.getServerSidePropsFor true context) L
    = (Returned (PropsResult emptyProps None),
       [EvFetch (plasmicPathOf (catchallOf context))]) ∧
  plasmicData emptyProps = None ∧
  queryCache emptyProps = None ∧
  CatchallServer.PlasmicLoaderPage emptyProps router = Returned (ErrorPage 404).
Proof.
  intros Hfetch. split; [|done].
  unfold run, CatchallServer.getServerSidePropsFor, bind, awaitFetch.
  cbn [Bool.eqb negb]. by rewrite Hfetch.
Qed.

Lemma absent_descriptor_404_witness :
  run (CatchallServer.getServerSidePropsFor true Sample.docsContext) (Sample.loaderOf None)
    = (Returned (PropsResult emptyProps None), [EvFetch "/docs/intro"]) ∧
  plasmicData emptyProps = None ∧
  queryCache emptyProps = None ∧
  CatchallServer.PlasmicLoaderPage emptyProps Sample.router = Returned (ErrorPage 404).
Proof.
  apply (absent_descriptor_404 (Sample.loaderOf None) Sample.docsContext Sample.router).
  reflexivity.
Defined.

(** ** C5: a descriptor without entries *)

(** C5, as stated, does not hold of the client-fetch page: with the
    empty descriptor cached and an error reported, the page is the error
    page, not the 404 page. *)
Lemma empty_descriptor_with_error_is_500 :
  entryCompMetas Sample.emptyDescriptor = [] ∧
  CatchallClient.data
    (CatchallClient.useSWR (Sample.hooksOf Sample.failedEmpty)
       (CatchallClient.swrKey Sample.docsProps)) = Some Sample.emptyDescriptor ∧
  CatchallClient.PlasmicLoaderPage Sample.docsProps (Sample.hooksOf Sample.failedEmpty)
    = Returned (ErrorPage 500) ∧
  CatchallClient.PlasmicLoaderPage Sample.docsProps (Sample.hooksOf Sample.failedEmpty)
    ≠ Returned (ErrorPage 404).
Proof. repeat split. discriminate. Qed.

(** C5 (amended). For every descriptor that is present but whose entry list
    is empty, the public page and the server-prefetch page render the 404
    page, whatever the cache and the query; the client-fetch page renders
    the 404 page when no fetch error is reported and the fetch is settled. *)
Theorem empty_descriptor_404 (d : ComponentRenderData) :
  entryCompMetas d = [] →
  (∀ cache router,
     Index.PlasmicLoaderPage (mkPageProps (Some d) cache) router
       = Returned (ErrorPage 404)) ∧
  (∀ cache router,
     CatchallServer.PlasmicLoaderPage (mkPageProps (Some d) cache) router
       = Returned (ErrorPage 404)) ∧
  (∀ props hooks,
     let swr := CatchallClient.useSWR hooks (CatchallClient.swrKey props) in
     CatchallClient.data swr = Some d →
     CatchallClient.error swr = None →
     CatchallClient.isValidating swr = false →
     CatchallClient.PlasmicLoaderPage props hooks = Returned (ErrorPage 404)).
Proof.
  intros Hempty. repeat split.
  - intros cache router. unfold Index.PlasmicLoaderPage. simpl. by rewrite Hempty.
  - intros cache router. unfold CatchallServer.PlasmicLoaderPage. simpl. by rewrite Hempty.
  - intros props hooks swr Hdata Herr Hsettled.
    unfold CatchallClient.PlasmicLoaderPage. fold swr.
    rewrite Hdata, Herr, Hsettled. simpl. by rewrite Hempty.
Qed.

Lemma empty_descriptor_404_witness :
  Index.PlasmicLoaderPage (mkPageProps (Some Sample.emptyDescriptor) None) Sample.router
    = Returned (ErrorPage 404) ∧
  CatchallServer.PlasmicLoaderPage (mkPageProps (Some Sample.emptyDescriptor) None) Sample.router
    = Returned (ErrorPage 404) ∧
  CatchallClient.PlasmicLoaderPage Sample.docsProps (Sample.hooksOf Sample.settledEmpty)
    = Returned (ErrorPage 404).
Proof.
  destruct (empty_descriptor_404 Sample.emptyDescriptor eq_refl) as (Hi & Hs & Hc).
  split; [apply Hi|]. split; [apply Hs|].
  apply Hc; reflexivity.
Defined.

(** ** C6: the render states of the client-fetch page *)

Section ClientStates.

Import CatchallClient.

Variables (props : ClientProps) (hooks : Hooks).

Let swr : SWRResponse := useSWR hooks (swrKey props).

(** A reported error gives the error page, whatever else [useSWR] says. *)
Lemma client_error_first (e : Error) :
  error swr = Some e → PlasmicLoaderPage props hooks = Returned (ErrorPage 500).
Proof.
  intros Herr. unfold PlasmicLoaderPage. fold swr. by rewrite Herr.
Qed.

(** No error, a fetch in flight and no data yet: the loading message. *)
Lemma client_loading :
  error swr = None → isValidating swr = true → data swr = None →
  PlasmicLoaderPage props hooks = Returned (Div "Loading...").
Proof.
  intros Herr Hval Hdata. unfold PlasmicLoaderPage. fold swr.
  by rewrite Herr, Hval, Hdata.
Qed.

(** No error, a settled fetch, and no descriptor or no entry: the 404 page. *)
Lemma client_not_found :
  error swr = None → isValidating swr = false → notFound (data swr) = true →
  PlasmicLoaderPage props hooks = Returned (ErrorPage 404).
Proof.
  intros Herr Hval Hnf. unfold PlasmicLoaderPage. fold swr.
  rewrite Herr, Hval, Hnf. reflexivity.
Qed.

(** No error and a descriptor with a first entry: that entry's component,
    with an empty query cache. *)
Lemma client_page (d : ComponentRenderData) (m : ComponentMeta) (rest : list ComponentMeta) :
  error swr = None → data swr = Some d → entryCompMetas d = m :: rest →
  PlasmicLoaderPage props hooks
    = Returned (firstEntryPage d m (Some ∅) (useRouter hooks)).
Proof.
  intros Herr Hdata Hentries. unfold PlasmicLoaderPage. fold swr.
  rewrite Herr, Hdata. unfold notFound. rewrite Hentries.
  destruct (isValidating swr); reflexivity.
Qed.

(** The one combination the four cases above leave out: no error, a fetch
    in flight, and a cached descriptor without entries. *)
Lemma client_states_exhaustive :
  (∃ e, error swr = Some e) ∨
  (error swr = None ∧ isValidating swr = true ∧ data swr = None) ∨
  (error swr = None ∧ isValidating swr = false ∧ notFound (data swr) = true) ∨
  (∃ d m rest, error swr = None ∧ data swr = Some d ∧ entryCompMetas d = m :: rest) ∨
  (∃ d, error swr = None ∧ isValidating swr = true ∧
        data swr = Some d ∧ entryCompMetas d = []).
Proof.
  destruct (error swr) as [e|] eqn:Herr; [left; by eexists|].
  destruct (data swr) as [d|] eqn:Hdata.
  - destruct (entryCompMetas d) as [|m rest] eqn:Hentries.
    + destruct (isValidating swr) eqn:Hval.
      * do 4 right. by exists d.
      * do 2 right. left. repeat split. simpl. by rewrite Hentries.
    + do 3 right. left. by exists d, m, rest.
  - destruct (isValidating swr) eqn:Hval.
    + right. left. done.
    + do 2 right. left. done.
Qed.

End ClientStates.

(** C6. In the client-fetch page, the combination "no error reported, a
    revalidation in flight, a cached descriptor without entries" reaches
    none of the four render states: both guards are passed over, reading
    [params] of the absent first entry throws, and no element is returned. *)
Theorem client_revalidating_empty_throws :
  let swr := CatchallClient.useSWR (Sample.hooksOf Sample.revalidatingEmpty)
               (CatchallClient.swrKey Sample.docsProps) in
  CatchallClient.error swr = None ∧
  CatchallClient.isValidating swr = true ∧
  (∃ d, CatchallClient.data swr = Some d ∧ entryCompMetas d = []) ∧
  CatchallClient.PlasmicLoaderPage Sample.docsProps (Sample.hooksOf Sample.revalidatingEmpty)
    = Thrown (TypeError "Cannot read properties of undefined (reading 'params')") ∧
  ∀ element : Element,
    CatchallClient.PlasmicLoaderPage Sample.docsProps (Sample.hooksOf Sample.revalidatingEmpty)
      ≠ Returned element.
Proof.
  split; [reflexivity|]. split; [reflexivity|]. split.
  - exists Sample.emptyDescriptor. by split.
  - split; [reflexivity|]. intros element Habs. discriminate Habs.
Qed.

(** ** C7: the build-time step of the public page *)

(** The step fetches the root path, and only once. *)
Lemma getStaticProps_fetches_root (L : Loader) :
  filter (λ e, isFetch e = true) (snd (run Index.getStaticProps L)) = [EvFetch "/"].
Proof.
  unfold run, Index.getStaticProps, bind, awaitFetch, awaitExtract, lift, ret.
  simpl.
  destruct (maybeFetchComponentData L Index.pageToLoad) as [[d|]|e]; try reflexivity.
  destruct (entryCompMetas d) as [|m rest]; simpl; [reflexivity|].
  destruct (extractPlasmicQueryData L _); reflexivity.
Qed.

(** With a first entry and a pre-computation that completes, the step
    returns the descriptor, the cache and a revalidation interval of 60. *)
Lemma getStaticProps_present (L : Loader) (d : ComponentRenderData)
    (m : ComponentMeta) (rest : list ComponentMeta) (cache : QueryCache) :
  let element :=
    PlasmicRootProvider
      {| prefetchedData := d; prefetchedQueryData := None;
         pageParams := params m; pageQuery := None |}
      (PlasmicComponent (displayName m)) in
  maybeFetchComponentData L "/" = Returned (Some d) →
  entryCompMetas d = m :: rest →
  extractPlasmicQueryData L element = Returned cache →
  run Index.getStaticProps L
    = (Returned (PropsResult {| plasmicData := Some d; queryCache := Some cache |}
                             (Some 60%Z)),
       [EvFetch "/"; EvExtract element]).
Proof.
  intros element Hfetch Hentries Hextract.
  unfold run, Index.getStaticProps, bind, awaitFetch, awaitExtract, lift, ret.
  unfold Index.pageToLoad. rewrite Hfetch, Hentries. simpl.
  fold element. by rewrite Hextract.
Qed.

(** C7. When the descriptor fetched for ["/"] is present but lists no entry,
    the build-time step returns nothing, neither props nor a revalidation
    interval: it throws on reading [params] of the absent first entry, right
    after the single fetch of ["/"]. *)
Theorem getStaticProps_empty_descriptor_throws :
  let L := Sample.loaderOf (Some Sample.emptyDescriptor) in
  (∃ d, maybeFetchComponentData L "/" = Returned (Some d) ∧ entryCompMetas d = []) ∧
  run Index.getStaticProps L
    = (Thrown (TypeError "Cannot read properties of undefined (reading 'params')"),
       [EvFetch "/"]) ∧
  ∀ (result : StepResult PageProps) (t : list Event),
    run Index.getStaticProps L ≠ (Returned result, t).
Proof.
  intros L. split.
  - exists Sample.emptyDescriptor. by split.
  - split; [reflexivity|]. intros result t Habs. discriminate Habs.
Qed.

(** ** C8: the server step of the client-fetch variant *)

(** C8. In the client-fetch variant the server step of an authorized request
    calls no collaborator (neither the descriptor fetch nor the
    pre-computation: the trace comes back unchanged) and returns the derived
    lookup path as its only prop; and every page the client renders carries
    the empty query cache. *)
Theorem client_variant_defers_fetch :
  (∀ (L : Loader) (context : Context) (t : list Event),
     CatchallClient.getServerSidePropsFor true context L t
       = (Returned (PropsResult
                      (CatchallClient.mkClientProps (plasmicPathOf (catchallOf context)))
                      None), t)) ∧
  (∀ (props : CatchallClient.ClientProps) (hooks : CatchallClient.Hooks)
     (p : RootProviderProps) (child : Element),
     CatchallClient.PlasmicLoaderPage props hooks = Returned (PlasmicRootProvider p child) →
     prefetchedQueryData p = Some ∅).
Proof.
  split; [reflexivity|].
  intros props hooks p child.
  destruct (client_states_exhaustive props hooks)
    as [[e He] | [(He & Hv & Hd) | [(He & Hv & Hd) | [(d & m & rest & He & Hd & Hm)
         | (d & He & Hv & Hd & Hm)]]]].
  - by rewrite (client_error_first _ _ _ He).
  - by rewrite (client_loading _ _ He Hv Hd).
  - by rewrite (client_not_found _ _ He Hv Hd).
  - rewrite (client_page _ _ _ _ _ He Hd Hm). intros [= <- _]. reflexivity.
  - unfold CatchallClient.PlasmicLoaderPage.
    rewrite He, Hv, Hd. simpl. by rewrite Hm.
Qed.

Lemma client_variant_defers_fetch_witness :
  run (CatchallClient.getServerSideProps Sample.docsContext) (Sample.loaderOf None)
    = (Returned (PropsResult Sample.docsProps None), []) ∧
  ∃ p child,
    CatchallClient.PlasmicLoaderPage Sample.docsProps
      (Sample.hooksOf (CatchallClient.mkSWRResponse (Some Sample.homeDescriptor) None true))
      = Returned (PlasmicRootProvider p child) ∧
    prefetchedQueryData p = Some ∅.
Proof.
  destruct client_variant_defers_fetch as [Hstep Hrender]. split.
  - exact (Hstep (Sample.loaderOf None) Sample.docsContext []).
  - eexists _, _. split; [reflexivity|].
    eapply (Hrender Sample.docsProps
              (Sample.hooksOf
                 (CatchallClient.mkSWRResponse (Some Sample.homeDescriptor) None true))).
    reflexivity.
Defined.

(** ** C9: the server steps on a descriptor without entries *)

(** C9. In both server-prefetch handlers, when the fetched descriptor is
    present but lists no entry, the server step reads the first entry
    without a check and throws on reading its [params], right after the
    fetch and before any pre-computation; the 404 page that the render
    function would give for this descriptor is never reached. *)
Theorem server_steps_throw_on_empty_descriptor (L : Loader) (d : ComponentRenderData)
    (context : Context) :
  entryCompMetas d = [] →
  (maybeFetchComponentData L "/" = Returned (Some d) →
   run Index.getStaticProps L
     = (Thrown (TypeError "Cannot read properties of undefined (reading 'params')"),
        [EvFetch "/"])) ∧
  (maybeFetchComponentData L (plasmicPathOf (catchallOf context)) = Returned (Some d) →
   run (CatchallServer.getServerSideProps context) L
     = (Thrown (TypeError "Cannot read properties of undefined (reading 'params')"),
        [EvFetch (plasmicPathOf (catchallOf context))])) ∧
  (∀ cache router,
     Index.PlasmicLoaderPage (mkPageProps (Some d) cache) router
       = Returned (ErrorPage 404) ∧
     CatchallServer.PlasmicLoaderPage (mkPageProps (Some d) cache) router
       = Returned (ErrorPage 404)).
Proof.
  intros Hempty. repeat split.
  - intros Hfetch.
    unfold run, Index.getStaticProps, bind, awaitFetch, lift, Index.pageToLoad.
    by rewrite Hfetch, Hempty.
  - intros Hfetch.
    unfold run, CatchallServer.getServerSideProps, CatchallServer.getServerSidePropsFor,
      CatchallServer.isAuthorized, bind, awaitFetch, lift.
    cbn [Bool.eqb negb]. by rewrite Hfetch, Hempty.
  - unfold Index.PlasmicLoaderPage. simpl. by rewrite Hempty.
  - unfold CatchallServer.PlasmicLoaderPage. simpl. by rewrite Hempty.
Qed.

Lemma server_steps_throw_on_empty_descriptor_witness :
  run Index.getStaticProps (Sample.loaderOf (Some Sample.emptyDescriptor))
    = (Thrown (TypeError "Cannot read properties of undefined (reading 'params')"),
       [EvFetch "/"]) ∧
  run (CatchallServer.getServerSideProps Sample.docsContext)
      (Sample.loaderOf (Some Sample.emptyDescriptor))
    = (Thrown (TypeError "Cannot read properties of undefined (reading 'params')"),
       [EvFetch "/docs/intro"]).
Proof.
  destruct (server_steps_throw_on_empty_descriptor
              (Sample.loaderOf (Some Sample.emptyDescriptor))
              Sample.emptyDescriptor Sample.docsContext eq_refl) as (Hstatic & Hserver & _).
  split; [apply Hstatic | apply Hserver]; reflexivity.
Defined.

(** ** C10: the client-fetch page while an empty descriptor is revalidated *)

(** C10. In the client-fetch page, when no error is reported, a revalidation
    is in flight and the cached descriptor lists no entry, the loading guard
    (which wants no data) and the 404 guard (which wants a settled fetch)
    are both false, and the render throws on reading [params] of the absent
    first entry instead of returning the 404 page. *)
Theorem client_revalidation_skips_404 (props : CatchallClient.ClientProps)
    (hooks : CatchallClient.Hooks) (d : ComponentRenderData) :
  let swr := CatchallClient.useSWR hooks (CatchallClient.swrKey props) in
  CatchallClient.error swr = None →
  CatchallClient.isValidating swr = true →
  CatchallClient.data swr = Some d →
  entryCompMetas d = [] →
  CatchallClient.isValidating swr
    && negb (bool_decide (is_Some (CatchallClient.data swr))) = false ∧
  negb (CatchallClient.isValidating swr)
    && CatchallClient.notFound (CatchallClient.data swr) = false ∧
  CatchallClient.notFound (CatchallClient.data swr) = true ∧
  CatchallClient.PlasmicLoaderPage props hooks
    = Thrown (TypeError "Cannot read properties of undefined (reading 'params')") ∧
  CatchallClient.PlasmicLoaderPage props hooks ≠ Returned (ErrorPage 404).
Proof.
  intros swr Herr Hval Hdata Hempty.
  assert (Hthrow : CatchallClient.PlasmicLoaderPage props hooks
    = Thrown (TypeError "Cannot read properties of undefined (reading 'params')")).
  { unfold CatchallClient.PlasmicLoaderPage. fold swr.
    rewrite Herr, Hval, Hdata. simpl. by rewrite Hempty. }
  rewrite Hval, Hdata. simpl. rewrite Hempty. simpl.
  repeat split; try done. by rewrite Hthrow.
Qed.

Lemma client_revalidation_skips_404_witness :
  CatchallClient.PlasmicLoaderPage Sample.docsProps (Sample.hooksOf Sample.revalidatingEmpty)
    ≠ Returned (ErrorPage 404).
Proof.
  apply (client_revalidation_skips_404 Sample.docsProps
           (Sample.hooksOf Sample.revalidatingEmpty) Sample.emptyDescriptor);
    reflexivity.
Defined.

(** * Further properties of the pages *)

(** ** The lookup path *)

Lemma concat_app (sep : string) (l1 l2 : list string) :
  l1 ≠ [] → l2 ≠ [] →
  String.concat sep (l1 ++ l2)
    = String.concat sep l1 +:+ sep +:+ String.concat sep l2.
Proof.
  intros Hl1 Hl2. induction l1 as [|x l1 IH]; [done|].
  rewrite <- app_comm_cons, !concat_cons.
  destruct l1 as [|y l1].
  - simpl. destruct l2; [done|]. by rewrite append_nil_r.
  - rewrite <- app_comm_cons. unfold sepTail. rewrite app_comm_cons.
    rewrite IH by done. by rewrite !append_assoc.
Qed.

(** X1. Nested routes: the path of a route made of two non-empty runs of
    segments is the path of the first run followed by the path of the
    second. *)
Theorem path_of_nested_segments (l1 l2 : list string) :
  l1 ≠ [] → l2 ≠ [] →
  plasmicPathOf (Some (PArray (l1 ++ l2)))
    = plasmicPathOf (Some (PArray l1)) +:+ plasmicPathOf (Some (PArray l2)).
Proof.
  intros Hl1 Hl2. unfold plasmicPathOf.
  rewrite !join_concat, concat_app by done.
  by rewrite !append_assoc.
Qed.

Lemma path_of_nested_segments_witness :
  plasmicPathOf (Some (PArray (["docs"] ++ ["api"; "v2"])))
    = plasmicPathOf (Some (PArray ["docs"])) +:+ plasmicPathOf (Some (PArray ["api"; "v2"])).
Proof. apply (path_of_nested_segments ["docs"] ["api"; "v2"]); discriminate. Defined.

(** Cutting a string where a slash-free prefix ends: what follows is empty
    or starts with the separator, so the cut is determined. *)
Lemma slashFree_cut (x y r1 r2 : string) :
  slashFree x = true → slashFree y = true →
  (r1 = "" ∨ ∃ r, r1 = String "/" r) →
  (r2 = "" ∨ ∃ r, r2 = String "/" r) →
  x +:+ r1 = y +:+ r2 → x = y ∧ r1 = r2.
Proof.
  revert y. induction x as [|c x IH]; intros [|c' y] Hx Hy Hr1 Hr2 Heq.
  - done.
  - exfalso. simpl in Heq. rewrite append_cons in Heq. simpl in Hy.
    apply andb_prop in Hy as [Hc _].
    destruct Hr1 as [-> | [r ->]]; [discriminate|].
    injection Heq as <- _. done.
  - exfalso. simpl in Heq. rewrite append_cons in Heq. simpl in Hx.
    apply andb_prop in Hx as [Hc _].
    destruct Hr2 as [-> | [r ->]]; [discriminate|].
    injection Heq as -> _. done.
  - rewrite !append_cons in Heq. injection Heq as -> Heq.
    simpl in Hx, Hy. apply andb_prop in Hx as [_ Hx]. apply andb_prop in Hy as [_ Hy].
    destruct (IH y Hx Hy Hr1 Hr2 Heq) as [-> ->]. done.
Qed.

Lemma sepTail_shape (l : list string) :
  sepTail "/" l = "" ∨ ∃ r, sepTail "/" l = String "/" r.
Proof. destruct l; [by left | right; by eexists]. Qed.

Lemma sepTail_inj (l1 l2 : list string) :
  Forall (λ s, slashFree s = true) l1 → Forall (λ s, slashFree s = true) l2 →
  sepTail "/" l1 = sepTail "/" l2 → l1 = l2.
Proof.
  intros H1. revert l2. induction H1 as [|x l1 Hx H1 IH]; intros l2 H2 Heq.
  - destruct l2; [done | discriminate].
  - destruct H2 as [|y l2 Hy H2]; [discriminate|].
    unfold sepTail in Heq. rewrite !concat_cons in Heq.
    injection Heq as Heq.
    destruct (slashFree_cut x y _ _ Hx Hy (sepTail_shape l1) (sepTail_shape l2) Heq)
      as [-> Htail].
    by rewrite (IH l2 H2 Htail).
Qed.

(** X2. Distinct routes are looked up under distinct paths: on arrays of
    proper segments (non-empty, without a slash) the derived path determines
    the segments. *)
Theorem path_determines_segments (l1 l2 : list string) :
  Forall (λ s, isSegment s = true) l1 →
  Forall (λ s, isSegment s = true) l2 →
  plasmicPathOf (Some (PArray l1)) = plasmicPathOf (Some (PArray l2)) →
  l1 = l2.
Proof.
  intros H1 H2 Heq. unfold plasmicPathOf in Heq.
  rewrite !join_concat in Heq. injection Heq as Heq.
  assert (Hfree : ∀ l, Forall (λ s, isSegment s = true) l →
                       Forall (λ s, slashFree s = true) l).
  { intros l Hl. eapply Forall_impl; [exact Hl|]. intros s Hs.
    unfold isSegment in Hs. by apply andb_prop in Hs as [_ ?]. }
  change (String.concat "/" l1 = String.concat "/" l2) in Heq.
  assert (Hne : ∀ x l, isSegment x = true → String.concat "/" (x :: l) ≠ "").
  { intros x l Hx. rewrite concat_cons. destruct x; [done|]. by rewrite append_cons. }
  destruct H1 as [|x l1 Hx H1], H2 as [|y l2 Hy H2].
  - done.
  - exfalso. by apply (Hne y l2 Hy).
  - exfalso. by apply (Hne x l1 Hx).
  - apply sepTail_inj.
    + apply Hfree. by constructor.
    + apply Hfree. by constructor.
    + unfold sepTail. by rewrite Heq.
Qed.

Lemma path_determines_segments_witness :
  ["docs"; "intro"] = ["docs"] ++ ["intro"].
Proof.
  apply (path_determines_segments ["docs"; "intro"] (["docs"] ++ ["intro"])).
  - repeat constructor.
  - repeat constructor.
  - reflexivity.
Defined.

(** Used the other way round: two different routes never share a path. *)
Example sibling_routes_differ :
  plasmicPathOf (Some (PArray ["docs"; "intro"]))
    ≠ plasmicPathOf (Some (PArray ["docs"; "api"])).
Proof.
  intros Heq.
  assert (Hsame : ["docs"; "intro"] = ["docs"; "api"]).
  { apply sepTail_inj; [repeat constructor..|].
    unfold plasmicPathOf in Heq. rewrite !join_concat in Heq.
    injection Heq as Heq. unfold sepTail. by rewrite Heq. }
  discriminate Hsame.
Qed.

(** X3. Only the [catchall] route parameter counts: adding or overwriting
    any other parameter leaves the derived path as it was, and a request
    without [params] is looked up like one whose [params] lack [catchall]. *)
Theorem path_ignores_other_params (ps : gmap string ParamValue)
    (k : string) (v : ParamValue) :
  k ≠ "catchall" →
  plasmicPathOf (catchallOf (mkContext (Some (<[k:=v]> ps))))
    = plasmicPathOf (catchallOf (mkContext (Some ps))) ∧
  (ps !! "catchall" = None →
   plasmicPathOf (catchallOf (mkContext (Some (<[k:=v]> ps))))
     = plasmicPathOf (catchallOf (mkContext None))).
Proof.
  intros Hk. unfold catchallOf. simpl.
  rewrite lookup_insert_ne by done. split; [done|].
  intros ->. by rewrite lookup_empty.
Qed.

Lemma path_ignores_other_params_witness :
  plasmicPathOf
    (catchallOf (mkContext (Some (<["lang":=PString "en"]>
                                    {[ "catchall" := PArray ["docs"; "intro"] ]}))))
    = "/docs/intro".
Proof.
  destruct (path_ignores_other_params
              {[ "catchall" := PArray ["docs"; "intro"] ]} "lang" (PString "en"))
    as [Hsame _]; [discriminate|].
  rewrite Hsame. reflexivity.
Defined.

(** ** The client-fetch page *)

Lemma append_inj_r (p s t : string) : p +:+ s = p +:+ t → s = t.
Proof.
  induction p as [|c p IH]; [done|].
  rewrite !append_cons. intros [= Heq]. by apply IH.
Qed.

(** X4. The cache keys of [useSWR] do not collide: two pages share a key
    only if they were given the same lookup path. *)
Theorem swrKey_inj (props1 props2 : CatchallClient.ClientProps) :
  CatchallClient.swrKey props1 = CatchallClient.swrKey props2 →
  props1 = props2.
Proof.
  destruct props1 as [p1], props2 as [p2]. unfold CatchallClient.swrKey. simpl.
  intros Heq. by rewrite (append_inj_r _ _ _ Heq).
Qed.

Lemma swrKey_inj_witness :
  Sample.docsProps = CatchallClient.mkClientProps ("/docs" +:+ "/intro").
Proof. apply (swrKey_inj Sample.docsProps _). reflexivity. Defined.

(** X5. The render functions of the public page and of the server-prefetch
    page never throw: whatever props they get, they return the 404 page
    (no descriptor, or one without entries) or the page of the first entry
    with the query cache of the props. *)
Theorem guarded_render_never_throws (props : PageProps) (router : Router) :
  Index.PlasmicLoaderPage props router = CatchallServer.PlasmicLoaderPage props router ∧
  ((notFoundProps props ∧
    Index.PlasmicLoaderPage props router = Returned (ErrorPage 404)) ∨
   (∃ d m rest,
      plasmicData props = Some d ∧ entryCompMetas d = m :: rest ∧
      Index.PlasmicLoaderPage props router
        = Returned (firstEntryPage d m (queryCache props) router))).
Proof.
  split; [reflexivity|].
  unfold notFoundProps, Index.PlasmicLoaderPage.
  destruct (plasmicData props) as [d|]; [|left; by split; [left|]].
  destruct (entryCompMetas d) as [|m rest] eqn:Hentries.
  - left. split; [right; by exists d | done].
  - right. by exists d, m, rest.
Qed.

Section ClientRender.

Import CatchallClient.

Variables (props : ClientProps) (hooks : Hooks).

Let swr : SWRResponse := useSWR hooks (swrKey props).

Lemma client_no_entry_throws (d : ComponentRenderData) :
  error swr = None → isValidating swr = true →
  data swr = Some d → entryCompMetas d = [] →
  PlasmicLoaderPage props hooks
    = Thrown (TypeError "Cannot read properties of undefined (reading 'params')").
Proof.
  intros He Hv Hd Hm. unfold PlasmicLoaderPage. fold swr.
  rewrite He, Hv, Hd. simpl. by rewrite Hm.
Qed.

(** X6. The client-fetch page throws in one state only: no error reported,
    a revalidation in flight and a cached descriptor without entries. In
    every other state it returns an element. *)
Theorem client_render_throws_iff :
  (∃ e, PlasmicLoaderPage props hooks = Thrown e) ↔
  (error swr = None ∧ isValidating swr = true ∧
   ∃ d, data swr = Some d ∧ entryCompMetas d = []).
Proof.
  split.
  - intros [e Hthrow].
    destruct (client_states_exhaustive props hooks)
      as [[e' He] | [(He & Hv & Hd) | [(He & Hv & Hd) | [(d & m & rest & He & Hd & Hm)
           | (d & He & Hv & Hd & Hm)]]]].
    + by rewrite (client_error_first _ _ _ He) in Hthrow.
    + by rewrite (client_loading _ _ He Hv Hd) in Hthrow.
    + by rewrite (client_not_found _ _ He Hv Hd) in Hthrow.
    + by rewrite (client_page _ _ _ _ _ He Hd Hm) in Hthrow.
    + repeat split; try done. by exists d.
  - intros (He & Hv & d & Hd & Hm). eexists.
    by apply (client_no_entry_throws d).
Qed.

End ClientRender.

(** X7. A background revalidation does not change what is on screen: with
    no error reported and a cached descriptor that has a first entry, two
    renders that differ only in [isValidating] give the same page. *)
Theorem revalidation_keeps_page (props : CatchallClient.ClientProps)
    (router : Router) (d : ComponentRenderData) (v1 v2 : bool) :
  entryCompMetas d ≠ [] →
  CatchallClient.PlasmicLoaderPage props
    (CatchallClient.mkHooks router (λ _, CatchallClient.mkSWRResponse (Some d) None v1))
  = CatchallClient.PlasmicLoaderPage props
      (CatchallClient.mkHooks router (λ _, CatchallClient.mkSWRResponse (Some d) None v2)).
Proof.
  intros Hne. destruct (entryCompMetas d) as [|m rest] eqn:Hentries; [done|].
  rewrite !(client_page _ _ d m rest); done.
Qed.

Lemma revalidation_keeps_page_witness :
  CatchallClient.PlasmicLoaderPage Sample.docsProps
    (CatchallClient.mkHooks Sample.router
       (λ _, CatchallClient.mkSWRResponse (Some Sample.homeDescriptor) None true))
  = CatchallClient.PlasmicLoaderPage Sample.docsProps
      (CatchallClient.mkHooks Sample.router
         (λ _, CatchallClient.mkSWRResponse (Some Sample.homeDescriptor) None false)).
Proof.
  apply (revalidation_keeps_page Sample.docsProps Sample.router Sample.homeDescriptor
           true false).
  discriminate.
Defined.

(** ** The server steps *)

Lemma getStaticProps_body :
  Index.getStaticProps = prefetchFrom "/" (Some 60%Z).
Proof. reflexivity. Qed.

Lemma getServerSideProps_body (context : Context) :
  CatchallServer.getServerSideProps context
    = prefetchFrom (plasmicPathOf (catchallOf context)) None.
Proof. reflexivity. Qed.

Lemma prefetchFrom_run (L : Loader) (path : string) (revalidate : option Z) :
  PrefetchRun L path revalidate (run (prefetchFrom path revalidate) L).
Proof.
  unfold run, prefetchFrom, bind, awaitFetch, awaitExtract, lift, ret.
  cbn [app].
  destruct (maybeFetchComponentData L path) as [[d|]|e] eqn:Hfetch.
  - destruct (entryCompMetas d) as [|m rest] eqn:Hentries; simpl.
    + by eapply RunNoEntry.
    + fold (precomputeElement d m).
      destruct (extractPlasmicQueryData L (precomputeElement d m)) as [cache|e]
        eqn:Hextract.
      * by eapply RunPresent.
      * by eapply RunExtractRejected.
  - by apply RunAbsent.
  - by apply RunFetchRejected.
Qed.

Lemma getStaticProps_run (L : Loader) :
  PrefetchRun L "/" (Some 60%Z) (run Index.getStaticProps L).
Proof. rewrite getStaticProps_body. apply prefetchFrom_run. Qed.

Lemma getServerSideProps_run (L : Loader) (context : Context) :
  PrefetchRun L (plasmicPathOf (catchallOf context)) None
    (run (CatchallServer.getServerSideProps context) L).
Proof. rewrite getServerSideProps_body. apply prefetchFrom_run. Qed.

(** X8. What the build-time step returns: never a redirect; either the
    empty props without a revalidation interval (the descriptor of ["/"] is
    absent), or a descriptor that has a first entry, together with the cache
    the pre-computation returned for that entry, and the interval 60. *)
Theorem getStaticProps_returns (L : Loader) (r : StepResult PageProps)
    (t : list Event) :
  run Index.getStaticProps L = (Returned r, t) →
  (maybeFetchComponentData L "/" = Returned None ∧
   r = PropsResult emptyProps None) ∨
  (∃ d m rest cache,
     maybeFetchComponentData L "/" = Returned (Some d) ∧
     entryCompMetas d = m :: rest ∧
     extractPlasmicQueryData L (precomputeElement d m) = Returned cache ∧
     r = PropsResult {| plasmicData := Some d; queryCache := Some cache |} (Some 60%Z)).
Proof.
  intros Hrun. pose proof (getStaticProps_run L) as Hcases.
  rewrite Hrun in Hcases. inversion Hcases; subst.
  - by left.
  - right. by exists d, m, rest, cache.
Qed.

Lemma getStaticProps_returns_witness :
  ∃ d m rest cache,
    maybeFetchComponentData (Sample.loaderOf (Some Sample.homeDescriptor)) "/"
      = Returned (Some d) ∧
    entryCompMetas d = m :: rest ∧
    extractPlasmicQueryData (Sample.loaderOf (Some Sample.homeDescriptor))
      (precomputeElement d m) = Returned cache ∧
    PropsResult {| plasmicData := Some Sample.homeDescriptor;
                   queryCache := Some {[ "q" := "v" ]} |} (Some 60%Z)
      = PropsResult {| plasmicData := Some d; queryCache := Some cache |} (Some 60%Z).
Proof.
  destruct (getStaticProps_returns (Sample.loaderOf (Some Sample.homeDescriptor))
              (PropsResult {| plasmicData := Some Sample.homeDescriptor;
                              queryCache := Some {[ "q" := "v" ]} |} (Some 60%Z))
              [EvFetch "/";
               EvExtract (precomputeElement Sample.homeDescriptor Sample.homeMeta)]
              eq_refl) as [[Habs _] | Hpresent].
  - discriminate Habs.
  - exact Hpresent.
Defined.

(** X9. The server-prefetch step on a page that exists: when the descriptor
    fetched for the derived path has a first entry and the pre-computation
    for that entry returns a cache, the step returns the descriptor and the
    cache as props, without a revalidation interval, after exactly these
    two calls. *)
Theorem getServerSideProps_present (L : Loader) (context : Context)
    (d : ComponentRenderData) (m : ComponentMeta) (rest : list ComponentMeta)
    (cache : QueryCache) :
  maybeFetchComponentData L (plasmicPathOf (catchallOf context)) = Returned (Some d) →
  entryCompMetas d = m :: rest →
  extractPlasmicQueryData L (precomputeElement d m) = Returned cache →
  run (CatchallServer.getServerSideProps context) L
    = (Returned (PropsResult {| plasmicData := Some d; queryCache := Some cache |} None),
       [EvFetch (plasmicPathOf (catchallOf context));
        EvExtract (precomputeElement d m)]).
Proof.
  intros Hfetch Hentries Hextract.
  pose proof (getServerSideProps_run L context) as Hcases.
  inversion Hcases as [e Hf | Hf | d' Hf He | d' m' rest' e Hf He Hx
                       | d' m' rest' cache' Hf He Hx];
    rewrite Hfetch in Hf; try discriminate Hf;
    injection Hf as <-; rewrite Hentries in He; try discriminate He;
    injection He as <- <-; rewrite Hextract in Hx; try discriminate Hx.
  by injection Hx as <-.
Qed.

Lemma getServerSideProps_present_witness :
  run (CatchallServer.getServerSideProps Sample.docsContext)
      (Sample.loaderOf (Some Sample.homeDescriptor))
    = (Returned (PropsResult {| plasmicData := Some Sample.homeDescriptor;
                                queryCache := Some {[ "q" := "v" ]} |} None),
       [EvFetch "/docs/intro";
        EvExtract (precomputeElement Sample.homeDescriptor Sample.homeMeta)]).
Proof.
  apply (getServerSideProps_present (Sample.loaderOf (Some Sample.homeDescriptor))
           Sample.docsContext Sample.homeDescriptor Sample.homeMeta [Sample.otherMeta]);
    reflexivity.
Defined.

(** X10. As committed, with [isAuthorized] set to [true], neither catch-all
    variant ever answers with a redirect: whatever the request and the
    collaborators, a step that returns hands back props. *)
Theorem committed_handlers_never_redirect (L : Loader) (context : Context) :
  (∀ r t, run (CatchallServer.getServerSideProps context) L = (Returned r, t) →
          isRedirect r = false) ∧
  (∀ r t, run (CatchallClient.getServerSideProps context) L = (Returned r, t) →
          isRedirect r = false).
Proof.
  split; intros r t Hrun.
  - pose proof (getServerSideProps_run L context) as Hcases.
    rewrite Hrun in Hcases. by inversion Hcases.
  - by injection Hrun as <- _.
Qed.

Lemma committed_handlers_never_redirect_witness :
  isRedirect (PropsResult emptyProps None) = false ∧
  isRedirect (PropsResult Sample.docsProps None) = false.
Proof.
  destruct (committed_handlers_never_redirect (Sample.loaderOf None) Sample.docsContext)
    as [Hserver Hclient].
  split.
  - apply (Hserver _ [EvFetch "/docs/intro"]). reflexivity.
  - apply (Hclient _ []). reflexivity.
Defined.

(** X11. Nothing catches a rejected descriptor fetch: both server steps
    throw the very error of the fetch, and the pre-computation is not
    called. *)
Theorem fetch_rejection_propagates (L : Loader) (context : Context) (e : Error) :
  (maybeFetchComponentData L "/" = Thrown e →
   run Index.getStaticProps L = (Thrown e, [EvFetch "/"])) ∧
  (maybeFetchComponentData L (plasmicPathOf (catchallOf context)) = Thrown e →
   run (CatchallServer.getServerSideProps context) L
     = (Thrown e, [EvFetch (plasmicPathOf (catchallOf context))])).
Proof.
  split; intros Hfetch.
  - rewrite getStaticProps_body. unfold run, prefetchFrom, bind, awaitFetch.
    by rewrite Hfetch.
  - rewrite getServerSideProps_body. unfold run, prefetchFrom, bind, awaitFetch.
    by rewrite Hfetch.
Qed.

Lemma fetch_rejection_propagates_witness :
  run Index.getStaticProps Sample.offlineLoader
    = (Thrown (Rejected "network down"), [EvFetch "/"]) ∧
  run (CatchallServer.getServerSideProps Sample.docsContext) Sample.offlineLoader
    = (Thrown (Rejected "network down"), [EvFetch "/docs/intro"]).
Proof.
  destruct (fetch_rejection_propagates Sample.offlineLoader Sample.docsContext
              (Rejected "network down")) as [Hstatic Hserver].
  split; [apply Hstatic | apply Hserver]; reflexivity.
Defined.

(** X12. Nor a rejected pre-computation: when the descriptor has a first
    entry and [extractPlasmicQueryData] rejects, both server steps throw
    that error after the two calls and return no props. *)
Theorem extract_rejection_propagates (L : Loader) (context : Context)
    (d : ComponentRenderData) (m : ComponentMeta) (rest : list ComponentMeta)
    (e : Error) :
  entryCompMetas d = m :: rest →
  extractPlasmicQueryData L (precomputeElement d m) = Thrown e →
  (maybeFetchComponentData L "/" = Returned (Some d) →
   run Index.getStaticProps L
     = (Thrown e, [EvFetch "/"; EvExtract (precomputeElement d m)])) ∧
  (maybeFetchComponentData L (plasmicPathOf (catchallOf context)) = Returned (Some d) →
   run (CatchallServer.getServerSideProps context) L
     = (Thrown e, [EvFetch (plasmicPathOf (catchallOf context));
                   EvExtract (precomputeElement d m)])).
Proof.
  intros Hentries Hextract.
  assert (Hbody : ∀ path rv,
    maybeFetchComponentData L path = Returned (Some d) →
    run (prefetchFrom path rv) L
      = (Thrown e, [EvFetch path; EvExtract (precomputeElement d m)])).
  { intros path rv Hfetch.
    unfold run, prefetchFrom, bind, awaitFetch, awaitExtract, lift.
    rewrite Hfetch, Hentries. simpl. fold (precomputeElement d m).
    by rewrite Hextract. }
  split; intros Hfetch.
  - rewrite getStaticProps_body. by apply Hbody.
  - rewrite getServerSideProps_body. by apply Hbody.
Qed.

Lemma extract_rejection_propagates_witness :
  run Index.getStaticProps Sample.brokenQueryLoader
    = (Thrown (Rejected "query failed"),
       [EvFetch "/"; EvExtract (precomputeElement Sample.homeDescriptor Sample.homeMeta)]) ∧
  run (CatchallServer.getServerSideProps Sample.docsContext) Sample.brokenQueryLoader
    = (Thrown (Rejected "query failed"),
       [EvFetch "/docs/intro";
        EvExtract (precomputeElement Sample.homeDescriptor Sample.homeMeta)]).
Proof.
  destruct (extract_rejection_propagates Sample.brokenQueryLoader Sample.docsContext
              Sample.homeDescriptor Sample.homeMeta [Sample.otherMeta]
              (Rejected "query failed") eq_refl eq_refl) as [Hstatic Hserver].
  split; [apply Hstatic | apply Hserver]; reflexivity.
Defined.

(** X13. Each run of a server step calls the descriptor fetch exactly once,
    first, for the step's own path, and the pre-computation at most once,
    after it: the trace is the fetch alone or the fetch followed by one
    pre-computation. *)
Theorem server_step_calls (L : Loader) (context : Context) :
  (snd (run Index.getStaticProps L) = [EvFetch "/"] ∨
   ∃ element, snd (run Index.getStaticProps L) = [EvFetch "/"; EvExtract element]) ∧
  (let path := plasmicPathOf (catchallOf context) in
   snd (run (CatchallServer.getServerSideProps context) L) = [EvFetch path] ∨
   ∃ element,
     snd (run (CatchallServer.getServerSideProps context) L)
       = [EvFetch path; EvExtract element]).
Proof.
  assert (Hshape : ∀ path rv r, PrefetchRun L path rv r →
            snd r = [EvFetch path] ∨ ∃ element, snd r = [EvFetch path; EvExtract element]).
  { intros path rv r Hcases. destruct Hcases; simpl; eauto. }
  split.
  - apply (Hshape "/" (Some 60%Z)). apply getStaticProps_run.
  - apply (Hshape _ None). apply getServerSideProps_run.
Qed.

(** ** From the server step to the page *)

Lemma render_prefetched (L : Loader) (path : string) (rv rv' : option Z)
    (props : PageProps) (t : list Event) (router : Router) :
  run (prefetchFrom path rv) L = (Returned (PropsResult props rv'), t) →
  (maybeFetchComponentData L path = Returned None ∧
   Index.PlasmicLoaderPage props router = Returned (ErrorPage 404)) ∨
  (∃ d m rest cache,
     maybeFetchComponentData L path = Returned (Some d) ∧
     entryCompMetas d = m :: rest ∧
     extractPlasmicQueryData L (precomputeElement d m) = Returned cache ∧
     Index.PlasmicLoaderPage props router
       = Returned (firstEntryPage d m (Some cache) router)).
Proof.
  intros Hrun. pose proof (prefetchFrom_run L path rv) as Hcases.
  rewrite Hrun in Hcases. inversion Hcases as [| Hf | | | d m rest cache Hf He Hx]; subst.
  - by left.
  - right. exists d, m, rest, cache. repeat split; try done.
    unfold Index.PlasmicLoaderPage. simpl. by rewrite He.
Qed.

(** X14. Rendering what the step returned: for props that come out of
    [getStaticProps] or of the server-prefetch [getServerSideProps], the
    page never throws; it is the 404 page only when the fetch found no
    descriptor, and otherwise the page of the first entry, carrying the
    cache that was pre-computed for that same entry. *)
Theorem page_of_step_props (L : Loader) (context : Context) (router : Router)
    (props : PageProps) (rv : option Z) (t : list Event) :
  let served (path : string) (page : Outcome Element) : Prop :=
    (maybeFetchComponentData L path = Returned None ∧
     page = Returned (ErrorPage 404)) ∨
    (∃ d m rest cache,
       maybeFetchComponentData L path = Returned (Some d) ∧
       entryCompMetas d = m :: rest ∧
       extractPlasmicQueryData L (precomputeElement d m) = Returned cache ∧
       page = Returned (firstEntryPage d m (Some cache) router)) in
  (run Index.getStaticProps L = (Returned (PropsResult props rv), t) →
   served "/" (Index.PlasmicLoaderPage props router)) ∧
  (run (CatchallServer.getServerSideProps context) L
     = (Returned (PropsResult props rv), t) →
   served (plasmicPathOf (catchallOf context))
          (CatchallServer.PlasmicLoaderPage props router)).
Proof.
  intros served. split; intros Hrun.
  - rewrite getStaticProps_body in Hrun. by eapply render_prefetched.
  - rewrite getServerSideProps_body in Hrun.
    change (CatchallServer.PlasmicLoaderPage props router)
      with (Index.PlasmicLoaderPage props router).
    by eapply render_prefetched.
Qed.

Lemma page_of_step_props_witness :
  Index.PlasmicLoaderPage
    {| plasmicData := Some Sample.homeDescriptor; queryCache := Some {[ "q" := "v" ]} |}
    Sample.router
  = Returned (firstEntryPage Sample.homeDescriptor Sample.homeMeta
                (Some {[ "q" := "v" ]}) Sample.router).
Proof.
  destruct (page_of_step_props (Sample.loaderOf (Some Sample.homeDescriptor))
              Sample.docsContext Sample.router
              {| plasmicData := Some Sample.homeDescriptor;
                 queryCache := Some {[ "q" := "v" ]} |}
              (Some 60%Z)
              [EvFetch "/";
               EvExtract (precomputeElement Sample.homeDescriptor Sample.homeMeta)])
    as [Hstatic _].
  destruct (Hstatic eq_refl) as [[Habs _] | (d & m & rest & cache & Hf & He & Hx & Hpage)].
  - discriminate Habs.
  - reflexivity.
Defined.


Lemma prefetchFrom_revalidate (L : Loader) (path : string) (rv : option Z) :
  run (prefetchFrom path None) L
    = (outcomeMap withoutRevalidate (fst (run (prefetchFrom path rv) L)),
       snd (run (prefetchFrom path rv) L)).
Proof.
  unfold run, prefetchFrom, bind, awaitFetch, awaitExtract, lift, ret.
  destruct (maybeFetchComponentData L path) as [[d|]|e]; try reflexivity.
  destruct (entryCompMetas d) as [|m rest]; simpl; [reflexivity|].
  destruct (extractPlasmicQueryData L _); reflexivity.
Qed.

(** X16. A request whose derived path is ["/"] is served by the
    server-prefetch step exactly as the build-time step serves the home
    page, same calls and same outcome, except that the result carries no
    revalidation interval. *)
Theorem root_request_like_static (L : Loader) (context : Context) :
  plasmicPathOf (catchallOf context) = "/" →
  run (CatchallServer.getServerSideProps context) L
    = (outcomeMap withoutRevalidate (fst (run Index.getStaticProps L)),
       snd (run Index.getStaticProps L)).
Proof.
  intros Hroot. rewrite getServerSideProps_body, getStaticProps_body, Hroot.
  apply prefetchFrom_revalidate.
Qed.

Lemma root_request_like_static_witness :
  run (CatchallServer.getServerSideProps Sample.rootContext)
      (Sample.loaderOf (Some Sample.homeDescriptor))
    = (Returned (PropsResult {| plasmicData := Some Sample.homeDescriptor;
                                queryCache := Some {[ "q" := "v" ]} |} None),
       [EvFetch "/";
        EvExtract (precomputeElement Sample.homeDescriptor Sample.homeMeta)]).
Proof.
  rewrite (root_request_like_static (Sample.loaderOf (Some Sample.homeDescriptor))
             Sample.rootContext eq_refl).
  reflexivity.
Defined.

(** ** Reading the client-fetch page backwards *)

(** One side of an equivalence whose premise is at odds with the state. *)
Ltac off_state :=
  first [ done
        | by intros [? ?]
        | by intros (_ & ? & _)
        | by intros (_ & _ & ?) ].

Section ClientScreens.

Import CatchallClient.

Variables (props : ClientProps) (hooks : Hooks).

Let swr : SWRResponse := useSWR hooks (swrKey props).

(** X17. Each screen of the client-fetch page tells the state of the fetch:
    the error page is shown exactly when an error is reported; the loading
    message exactly when there is no error, a fetch in flight and no data;
    the 404 page exactly when there is no error, the fetch is settled, and
    the descriptor is absent or has no entry. In particular the 404 page is
    never shown while a fetch is in flight. *)
Theorem client_screen_tells_state :
  (PlasmicLoaderPage props hooks = Returned (ErrorPage 500) ↔ is_Some (error swr)) ∧
  (PlasmicLoaderPage props hooks = Returned (Div "Loading...") ↔
     error swr = None ∧ isValidating swr = true ∧ data swr = None) ∧
  (PlasmicLoaderPage props hooks = Returned (ErrorPage 404) ↔
     error swr = None ∧ isValidating swr = false ∧ notFound (data swr) = true).
Proof.
  destruct (client_states_exhaustive props hooks)
    as [[e He] | [(He & Hv & Hd) | [(He & Hv & Hd) | [(d & m & rest & He & Hd & Hm)
         | (d & He & Hv & Hd & Hm)]]]]; unfold swr.
  - rewrite (client_error_first _ _ _ He), He.
    repeat split; off_state.
  - rewrite (client_loading _ _ He Hv Hd), He, Hv, Hd.
    repeat split; off_state.
  - rewrite (client_not_found _ _ He Hv Hd), He, Hv, Hd.
    repeat split; off_state.
  - rewrite (client_page _ _ _ _ _ He Hd Hm), He, Hd. unfold notFound. rewrite Hm.
    repeat split; off_state.
  - rewrite (client_no_entry_throws _ _ d He Hv Hd Hm), He, Hv, Hd.
    repeat split; off_state.
Qed.

End ClientScreens.
